(** * The contributors pipeline of itu-web-archive

    Two programs share one static file, [contributors.json]:

    - [src/scripts/fetch-contributors.js], a Node script that asks the GitHub
      API for the contributors of [keepdying/itu-web-archive], keeps the
      accounts of type ['User'], makes sure the repository owner is listed and
      writes the list as indented JSON;
    - [src/components/Footer.tsx], a React component that loads that file when
      it mounts and renders the attribution line of the page footer.

    Both are embedded below as Rocq functions.  JavaScript values that come
    out of [JSON.parse] are the inductive type [json]; [undefined] is the
    [None] of [value].  Code that can throw returns [result]; the script, which
    also logs and writes a file, runs in a state-and-exception monad over
    [World].  The network and the file system are inputs of the model. *)

From Stdlib Require Import String Ascii List ZArith Lia DecimalString.
Import ListNotations.
Open Scope string_scope.

(** ** JavaScript values, exceptions and the built-ins the two programs use *)

Module JS.

(** A value produced by [JSON.parse].  A number is kept as the text
    [String(n)] gives for it, which is also what [JSON.stringify] prints and
    what React renders; [-0] has the text ["0"].  The properties of an object
    are its own properties in enumeration order, one entry per key
    ([JSON.parse] has already resolved repeated keys). *)
#[warnings="-register-all"]
Inductive json : Type :=
| JNull
| JBool (b : bool)
| JNum (lit : string)
| JStr (s : string)
| JArr (items : list json)
| JObj (props : list (string * json)).

(** A JavaScript value as the programs see it: [None] is [undefined]. *)
Definition value : Type := option json.

Definition undefined : value := None.
Definition str (s : string) : value := Some (JStr s).

(** What can be thrown.  [Error] is [new Error(message)] of the script; the
    others are raised by the engine, by [fetch]/[res.json()] and by [fs].  The
    message texts of engine errors are those of V8; nothing depends on them
    except the log lines. *)
Inductive exn : Type :=
| Error (message : string)
| TypeError (message : string)
| SyntaxError (message : string)
| SystemError (code : string) (message : string).

(** [error.message] *)
Definition message_of (e : exn) : string :=
  match e with
  | Error m | TypeError m | SyntaxError m | SystemError _ m => m
  end.

(** Code that returns or throws. *)
Definition result (A : Type) : Type := (exn + A)%type.

Definition ret {A} (a : A) : result A := inr a.
Definition throw {A} (e : exn) : result A := inl e.
Definition bind {A B} (c : result A) (k : A -> result B) : result B :=
  match c with
  | inl e => inl e
  | inr a => k a
  end.

Declare Scope js_scope.
Delimit Scope js_scope with js.
Notation "x <- c ;; k" := (bind c (fun x => k))
  (at level 61, c at next level, right associativity) : js_scope.
Open Scope js_scope.

(** The own property [key] of a parsed object. *)
Fixpoint lookup (key : string) (props : list (string * json)) : value :=
  match props with
  | [] => None
  | (k, v) :: rest => if String.eqb k key then Some v else lookup key rest
  end.

(** [o.key] for a data key, that is a key no built-in prototype defines
    (the programs read [type], [login], [html_url], [username] and
    [profileUrl]).  Reading a property of [null] or [undefined] throws; a
    primitive or an array has no such property. *)
Definition get (o : value) (key : string) : result value :=
  match o with
  | None =>
      throw (TypeError ("Cannot read properties of undefined (reading '" ++ key ++ "')"))
  | Some JNull =>
      throw (TypeError ("Cannot read properties of null (reading '" ++ key ++ "')"))
  | Some (JObj props) => ret (lookup key props)
  | Some _ => ret undefined
  end.

(** [v === s] for a string literal [s]: true only on the same string. *)
Definition strict_equals_string (v : value) (s : string) : bool :=
  match v with
  | Some (JStr t) => String.eqb t s
  | _ => false
  end.

(** The loop of [Array.prototype.filter]: the callback runs on every element
    in index order and a throw stops the loop. *)
Fixpoint filter_loop (callback : json -> result bool) (items : list json)
  : result (list json) :=
  match items with
  | [] => ret []
  | x :: rest =>
      keep <- callback x ;;
      kept <- filter_loop callback rest ;;
      ret (if keep : bool then x :: kept else kept)
  end.

(** The loop of [Array.prototype.map], the callback receiving the element
    and its index. *)
Fixpoint map_loop {A B} (callback : A -> Z -> result B) (index : Z) (items : list A)
  : result (list B) :=
  match items with
  | [] => ret []
  | x :: rest =>
      y <- callback x index ;;
      ys <- map_loop callback (index + 1) rest ;;
      ret (y :: ys)
  end.

(** [receiver.method] is called as an array method: only an array has it.
    [name] is the text of the call, for the message. *)
Definition array_receiver (name method : string) (receiver : json)
  : result (list json) :=
  match receiver with
  | JArr items => ret items
  | JNull =>
      throw (TypeError ("Cannot read properties of null (reading '" ++ method ++ "')"))
  | _ => throw (TypeError (name ++ "." ++ method ++ " is not a function"))
  end.

(** [v.length === 0].  An array has its length, a string is empty or not, an
    object has the property only when it was parsed with a key ["length"],
    [null] throws and a number or boolean gives [undefined]. *)
Definition length_is_zero (v : json) : result bool :=
  match v with
  | JNull => throw (TypeError "Cannot read properties of null (reading 'length')")
  | JArr items => ret (Z.of_nat (List.length items) =? 0)%Z
  | JStr s => ret (String.eqb s "")
  | JObj props =>
      ret (match lookup "length" props with
           | Some (JNum lit) => String.eqb lit "0"
           | _ => false
           end)
  | JBool _ | JNum _ => ret false
  end.

(** The decimal text of a number, as a template literal prints it. *)
Definition nat_to_string (n : nat) : string :=
  NilZero.string_of_uint (Nat.to_uint n).

Definition Z_to_string (z : Z) : string :=
  NilZero.string_of_int (Z.to_int z).

(** *** [JSON.stringify(value, null, 2)] *)

Definition quote_mark : string := String (ascii_of_nat 34) "".
Definition line_feed : string := String (ascii_of_nat 10) "".

Definition hex_digit (n : nat) : string :=
  String.substring n 1 "0123456789abcdef".

(** One character of a quoted JSON string: the quote and the backslash are
    escaped, a control character has its short escape or [\u00xx], every
    other byte of the UTF-8 text is copied. *)
Definition quote_char (c : ascii) : string :=
  let n := nat_of_ascii c in
  if (n =? 8)%nat then "\b"
  else if (n =? 9)%nat then "\t"
  else if (n =? 10)%nat then "\n"
  else if (n =? 12)%nat then "\f"
  else if (n =? 13)%nat then "\r"
  else if (n =? 34)%nat then "\" ++ quote_mark
  else if (n =? 92)%nat then "\\"
  else if (n <? 32)%nat then "\u00" ++ hex_digit (n / 16) ++ hex_digit (n mod 16)
  else String c "".

Fixpoint quote_chars (s : string) : string :=
  match s with
  | EmptyString => ""
  | String c rest => quote_char c ++ quote_chars rest
  end.

Definition quote (s : string) : string :=
  quote_mark ++ quote_chars s ++ quote_mark.

Fixpoint join (separator : string) (parts : list string) : string :=
  match parts with
  | [] => ""
  | [p] => p
  | p :: rest => p ++ separator ++ join separator rest
  end.

(** The text of [v] at the current indentation [indent], with a gap of two
    spaces per level. *)
Fixpoint serialize (indent : string) (v : json) : string :=
  let inner := indent ++ "  " in
  let wrap (opening closing : string) (parts : list string) :=
    opening ++ line_feed ++ inner
      ++ join ("," ++ line_feed ++ inner) parts
      ++ line_feed ++ indent ++ closing in
  match v with
  | JNull => "null"
  | JBool true => "true"
  | JBool false => "false"
  | JNum lit => lit
  | JStr s => quote s
  | JArr [] => "[]"
  | JArr items => wrap "[" "]" (map (serialize inner) items)
  | JObj [] => "{}"
  | JObj props =>
      wrap "{" "}"
        (map (fun kv => match kv with
                        | (k, x) => quote k ++ ": " ++ serialize inner x
                        end) props)
  end.

End JS.

(** ** [src/scripts/fetch-contributors.js] *)

Module FetchContributors.
Import JS.

Definition REPO_OWNER : string := "keepdying".
Definition GITHUB_API_URL : string :=
  "https://api.github.com/repos/keepdying/itu-web-archive/contributors".

(** The object literal [{ username, profileUrl }] the script builds. *)
Record Contributor : Type := mkContributor {
  username : value;
  profileUrl : value
}.

(** What [await fetch(...)] resolves to: [response.ok] is derived from the
    status, [json_body] is the outcome of [await response.json()]. *)
Record Response : Type := mkResponse {
  status : Z;
  statusText : string;
  json_body : result json
}.

Definition ok (response : Response) : bool :=
  andb (200 <=? status response)%Z (status response <=? 299)%Z.

(** [fs.writeFileSync] either writes the whole text or throws, leaving the
    file as the file system left it (absent, as before, or partly written). *)
Inductive write_outcome : Type :=
| Written
| WriteFails (e : exn) (left_behind : option string).

(** The surroundings of one run: [fetch], which answers a request for an
    address with the given headers by rejecting or by a response, the value of
    [path.join(__dirname, '..', 'public', 'contributors.json')] and what the
    file system does with the write. *)
Record Env : Type := mkEnv {
  fetch : string -> list (string * string) -> result Response;
  outputPath : string;
  write : write_outcome
}.

(** Lines 12-16: the request the script sends. *)
Definition request (env : Env) : result Response :=
  fetch env GITHUB_API_URL [("Accept", "application/vnd.github.v3+json")].

Inductive log_entry : Type :=
| console_log_entry (args : list string)
| console_error_entry (args : list string).

(** The artifact file at [outputPath] and the console, oldest line first. *)
Record World : Type := mkWorld {
  artifact : option string;
  console : list log_entry
}.

(** Line 26: [contributor => contributor.type === 'User'] *)
Definition type_is_User (contributor : json) : result bool :=
  type <- get (Some contributor) "type" ;;
  ret (strict_equals_string type "User").

(** Lines 27-30: [contributor => ({ username: contributor.login,
    profileUrl: contributor.html_url })] *)
Definition to_contributor (contributor : json) (index : Z) : result Contributor :=
  login <- get (Some contributor) "login" ;;
  html_url <- get (Some contributor) "html_url" ;;
  ret {| username := login; profileUrl := html_url |}.

(** Lines 25-30: keep the records of type ['User'], project them. *)
Definition filter_and_format (contributors : json) : result (list Contributor) :=
  items <- array_receiver "contributors" "filter" contributors ;;
  users <- filter_loop type_is_User items ;;
  map_loop to_contributor 0%Z users.

(** Line 33: [formattedContributors.some(c => c.username === REPO_OWNER)] *)
Definition ownerExists (formattedContributors : list Contributor) : bool :=
  existsb (fun c => strict_equals_string (username c) REPO_OWNER)
          formattedContributors.

Definition owner : Contributor :=
  {| username := str REPO_OWNER;
     profileUrl := str ("https://github.com/" ++ REPO_OWNER) |}.

(** Lines 34-39: [unshift] the owner when no entry has the owner's name. *)
Definition ensure_owner (formattedContributors : list Contributor)
  : list Contributor :=
  if negb (ownerExists formattedContributors)
  then owner :: formattedContributors
  else formattedContributors.

(** Lines 25-39: the list the script goes on to write. *)
Definition formattedContributors (contributors : json) : result (list Contributor) :=
  formatted <- filter_and_format contributors ;;
  ret (ensure_owner formatted).

(** Lines 12-39: the request, the status check, the body and the list. *)
Definition fetch_and_format (env : Env) : result (list Contributor) :=
  response <- request env ;;
  _ <- (if negb (ok response)
        then throw (Error ("GitHub API error: " ++ Z_to_string (status response)
                             ++ " " ++ statusText response))
        else ret tt) ;;
  contributors <- json_body response ;;
  formattedContributors contributors.

(** [JSON.stringify] leaves out a property whose value is [undefined]. *)
Definition present (key : string) (v : value) : list (string * json) :=
  match v with
  | Some x => [(key, x)]
  | None => []
  end.

Definition contributor_json (c : Contributor) : json :=
  JObj (present "username" (username c) ++ present "profileUrl" (profileUrl c)).

(** The JSON document the artifact holds: what [JSON.parse] gives back for
    the text the script writes. *)
Definition artifact_document (formatted : list Contributor) : json :=
  JArr (map contributor_json formatted).

(** Line 45: [JSON.stringify(formattedContributors, null, 2)] *)
Definition JSON_stringify (formatted : list Contributor) : string :=
  serialize "" (artifact_document formatted).

(** *** The script as a program over the world *)

Definition M (A : Type) : Type := World -> World * result A.

Definition mret {A} (a : A) : M A := fun w => (w, ret a).
Definition mthrow {A} (e : exn) : M A := fun w => (w, throw e).
Definition mbind {A B} (c : M A) (k : A -> M B) : M B :=
  fun w =>
    match c w with
    | (w', inl e) => (w', inl e)
    | (w', inr a) => k a w'
    end.

(** A computation that does not touch the world. *)
Definition lift {A} (c : result A) : M A := fun w => (w, c).

(** [try { body } catch (error) { handler }] *)
Definition try_catch {A} (body : M A) (handler : exn -> M A) : M A :=
  fun w =>
    match body w with
    | (w', inl error) => handler error w'
    | (w', inr a) => (w', inr a)
    end.

Definition console_log (args : list string) : M unit :=
  fun w => ({| artifact := artifact w;
               console := console w ++ [console_log_entry args] |}, ret tt).

Definition console_error (args : list string) : M unit :=
  fun w => ({| artifact := artifact w;
               console := console w ++ [console_error_entry args] |}, ret tt).

Definition writeFileSync (env : Env) (data : string) : M unit :=
  fun w =>
    match write env with
    | Written => ({| artifact := Some data; console := console w |}, ret tt)
    | WriteFails e left_behind =>
        ({| artifact := left_behind; console := console w |}, throw e)
    end.

Declare Scope script_scope.
Delimit Scope script_scope with script.
Notation "x <-- c ;; k" := (mbind c (fun x => k))
  (at level 61, c at next level, right associativity) : script_scope.
Notation "c ;;; k" := (mbind c (fun _ => k))
  (at level 61, right associativity) : script_scope.

(** Lines 8-56.  The whole body is inside the [try]; the handler logs and
    returns, so the promise of the [async] function is fulfilled. *)
Definition fetchContributors (env : Env) : M unit :=
  (try_catch
     (console_log ["Fetching contributors from GitHub API..."] ;;;
      formatted <-- lift (fetch_and_format env) ;;
      writeFileSync env (JSON_stringify formatted) ;;;
      console_log ["Successfully fetched "
                     ++ nat_to_string (List.length formatted)
                     ++ " contributors"] ;;;
      console_log ["Written to " ++ outputPath env])
     (fun error =>
        console_error ["Error fetching contributors:"; message_of error] ;;;
        console_log ["Keeping existing contributors.json file"]))%script.

(** Line 58: the script calls the function and ends.  Node ends with status
    0 when the promise is fulfilled and with status 1 when it is rejected and
    nobody handles the rejection. *)
Definition exit_status (settled : result unit) : Z :=
  match settled with
  | inr _ => 0%Z
  | inl _ => 1%Z
  end.

Definition run (env : Env) (w : World) : World * Z :=
  let (w', settled) := fetchContributors env w in
  (w', exit_status settled).

End FetchContributors.

(** ** [src/components/Footer.tsx] *)

Module Footer.
Import JS.

(** What a component returns: a JavaScript value used as a child (a string,
    [false], a number, ...), an array of children, or an element with its
    props and children.  The [sx] styling of the outer [Box] is left out (it
    holds theme callbacks and no text). *)
#[warnings="-register-all"]
Inductive node : Type :=
| NVal (v : value)
| NList (items : list node)
| NElem (type : string) (props : list (string * value)) (children : list node).

Definition text (s : string) : node := NVal (str s).

Definition basePath : string := "/itu-web-archive".

(** The address of line 15. *)
Definition artifact_url : string := basePath ++ "/contributors.json".

(** [useState<Contributor[]>([])]: the state holds whatever
    [setContributors] was given, which is the parsed body, unchecked. *)
Definition initial_contributors : json := JArr [].

(** Lines 37-39: what follows the link of the entry at [index], [length]
    being [contributors.length]: nothing ([false]) after the last entry, the
    conjunction before it, a comma elsewhere. *)
Definition separator (length index : Z) : node :=
  if (index <? length - 1)%Z
  then (if (index =? length - 2)%Z then text " ve " else text ", ")
  else NVal (Some (JBool false)).

(** Lines 27-40: the callback of [contributors.map]. *)
Definition entry (length : Z) (contributor : json) (index : Z) : result node :=
  key <- get (Some contributor) "username" ;;
  href <- get (Some contributor) "profileUrl" ;;
  username <- get (Some contributor) "username" ;;
  ret (NElem "React.Fragment" [("key", key)]
         [NElem "Link"
            [("href", href); ("target", str "_blank");
             ("rel", str "noopener"); ("underline", str "hover")]
            [text "@"; NVal username];
          separator length index]).

(** Lines 20-44, [contributors] being the state of the current render. *)
Definition formatContributors (contributors : json) : result node :=
  empty <- length_is_zero contributors ;;
  if empty : bool then ret (text "@keepdying hayratıdır")
  else
    items <- array_receiver "contributors" "map" contributors ;;
    links <- map_loop (entry (Z.of_nat (List.length items))) 0%Z items ;;
    ret (NElem "React.Fragment" [] [NList links; text " hayratıdır."]).

(** Lines 46-73: what [Footer] returns for the current state. *)
Definition render (contributors : json) : result node :=
  formatted <- formatContributors contributors ;;
  ret (NElem "Box" [("component", str "footer")]
         [NElem "Typography"
            [("variant", str "body2"); ("color", str "text.secondary")]
            [formatted; text " -"; text " ";
             NElem "Link"
               [("href", str "https://github.com/keepdying/itu-web-archive");
                ("target", str "_blank"); ("rel", str "noopener noreferrer");
                ("color", str "inherit")]
               [text "GitHub Repository"]]]).

(** What the browser answers to a request: [fetch] rejects (the network
    failed) or resolves with a response of any status, whose [json()] rejects
    or resolves with the parsed body. *)
Record Response : Type := mkResponse {
  status : Z;
  json_body : result json
}.

Definition request_outcome : Type := result Response.

(** The [fetch] of the page: an outcome for every address. *)
Definition fetcher : Type := string -> request_outcome.

(** Lines 14-18: [fetch(...).then(res => res.json()).then(setContributors)].
    The result is the state afterwards and how the promise chain settled; the
    chain has no [catch], so a rejection stays unhandled and the state is not
    set. *)
Definition effect (fetch : fetcher) (contributors : json)
  : json * result unit :=
  match fetch artifact_url with
  | inl e => (contributors, throw e)
  | inr res =>
      match json_body res with
      | inl e => (contributors, throw e)
      | inr parsed => (parsed, ret tt)
      end
  end.

(** The state once the effect of the mount has settled. *)
Definition contributors_after (fetch : fetcher) : json :=
  fst (effect fetch initial_contributors).

(** The render that follows. *)
Definition render_after (fetch : fetcher) : result node :=
  render (contributors_after fetch).

(** *** The text React puts on the page *)

(** A value as a child: a string or number is its text, [null], [undefined]
    and booleans render nothing, an array renders its items, an object is
    refused by React ([None]). *)
Fixpoint value_text (v : json) : option string :=
  match v with
  | JStr s => Some s
  | JNum lit => Some lit
  | JNull | JBool _ => Some ""
  | JArr items =>
      fold_right (fun x acc =>
                    match value_text x, acc with
                    | Some a, Some b => Some (a ++ b)
                    | _, _ => None
                    end) (Some "") items
  | JObj _ => None
  end.

Fixpoint text_content (n : node) : option string :=
  let all := fold_right (fun c acc =>
                           match text_content c, acc with
                           | Some a, Some b => Some (a ++ b)
                           | _, _ => None
                           end) (Some "") in
  match n with
  | NVal None => Some ""
  | NVal (Some v) => value_text v
  | NList items => all items
  | NElem _ _ children => all children
  end.

End Footer.

(** ** Vocabulary of the properties *)

Import JS.

Module Provider.
Import FetchContributors.

(** A record of the provider's array whose properties can be read: anything
    but [null]. *)
Definition readable (record : json) : Prop := record <> JNull.

(** The property [key] of a readable record. *)
Definition field (key : string) (record : json) : value :=
  match record with
  | JObj props => lookup key props
  | _ => undefined
  end.

(** A human-user record: its [type] is the string ['User']. *)
Definition is_user (record : json) : bool :=
  strict_equals_string (field "type" record) "User".

Definition human_users (records : list json) : list json :=
  filter is_user records.

(** The Contributor shape of a record: [login] and [html_url], unchanged. *)
Definition project (record : json) : Contributor :=
  {| username := field "login" record; profileUrl := field "html_url" record |}.

(** Number of entries of a list that carry the owner's name. *)
Definition count_owner (l : list Contributor) : nat :=
  List.length (filter (fun c => strict_equals_string (username c) REPO_OWNER) l).

(** A provider record as GitHub sends it, reduced to the properties read. *)
Definition account (type login html_url : string) : json :=
  JObj [("login", JStr login); ("html_url", JStr html_url); ("type", JStr type)].

(** A response that lists the same login twice. *)
Definition twice_the_same_login : json :=
  JArr [account "User" "a" "https://github.com/a";
        account "User" "a" "https://github.com/a"].

(** The ways a run fails before the write (steps 1 to 6): the request
    rejects, the status is not 2xx, the body is not JSON, or the body is JSON
    of the wrong shape. *)
Inductive fails_before_write (env : Env) : exn -> Prop :=
| network_error e :
    request env = throw e -> fails_before_write env e
| status_not_success response :
    request env = ret response -> ok response = false ->
    fails_before_write env
      (Error ("GitHub API error: " ++ Z_to_string (status response)
                ++ " " ++ statusText response))
| body_not_json response e :
    request env = ret response -> ok response = true ->
    json_body response = throw e -> fails_before_write env e
| body_malformed response contributors e :
    request env = ret response -> ok response = true ->
    json_body response = ret contributors ->
    formattedContributors contributors = throw e -> fails_before_write env e.

(** A run in which the provider answers well and the disk is full. *)
Definition disk_full : Env :=
  {| fetch := fun _ _ =>
       ret {| status := 200; statusText := "OK";
              json_body := ret (JArr [account "User" "a" "https://github.com/a"]) |};
     outputPath := "/repo/public/contributors.json";
     write := WriteFails
                (SystemError "ENOSPC" "ENOSPC: no space left on device, write")
                (Some "") |}.

Definition previous_world : World :=
  {| artifact := Some "[]"; console := [] |}.

(** Number of human-user records of a response that carry the owner's
    login. *)
Definition owner_records (records : list json) : nat :=
  List.length
    (filter (fun r => andb (is_user r)
                           (strict_equals_string (field "login" r) REPO_OWNER))
            records).

(** A provider that answers the script's request with [response] and an
    unrelated page to anything else, on a disk that takes the write. *)
Definition answering (response : Response) (path : string) : Env :=
  {| fetch := fun url _ =>
       if String.eqb url GITHUB_API_URL then ret response
       else ret {| status := 404; statusText := "Not Found";
                   json_body := throw (SyntaxError "Unexpected token '<'") |};
     outputPath := path;
     write := Written |}.

End Provider.

Module Page.
Import Footer.

(** The request for the artifact settles without a parsed body: [fetch]
    rejects, or [res.json()] rejects. *)
Inductive rejects : request_outcome -> exn -> Prop :=
| fetch_rejects e : rejects (throw e) e
| json_rejects response e :
    json_body response = throw e -> rejects (ret response) e.

(** The failures the specification counts: the above, and any response with
    status 404. *)
Definition fails_as_specified (outcome : request_outcome) : Prop :=
  (exists e, rejects outcome e) \/
  (exists response, outcome = ret response /\ status response = 404%Z).

(** A host that has nothing at any address and answers [not_found]. *)
Definition host_without_artifact (not_found : Response) : fetcher :=
  fun _ => ret not_found.

(** A 404 whose body is a JSON error object, as API-style servers send. *)
Definition not_found_with_json_body : Response :=
  {| status := 404;
     json_body := ret (JObj [("message", JStr "Not Found")]) |}.

(** A 404 whose body is an HTML page, as a static host sends. *)
Definition not_found_with_html_body : Response :=
  {| status := 404;
     json_body := throw (SyntaxError "Unexpected token '<'") |}.

(** A static host that serves the artifact [document] at the address the
    page asks for, and nothing else. *)
Definition serves (document : json) : fetcher :=
  fun url =>
    if String.eqb url "/itu-web-archive/contributors.json"
    then ret {| status := 200; json_body := ret document |}
    else ret not_found_with_html_body.

Definition fallback_phrase : string := "@keepdying hayratıdır".

(** The input of the formatting example: three names, no profile URLs. *)
Definition a_b_c : json :=
  JArr [JObj [("username", JStr "a")];
        JObj [("username", JStr "b")];
        JObj [("username", JStr "c")]].

(** The link to a contributor's profile. *)
Definition profile_link (href username : value) : node :=
  NElem "Link"
    [("href", href); ("target", str "_blank");
     ("rel", str "noopener"); ("underline", str "hover")]
    [text "@"; NVal username].

(** The static link that ends the footer. *)
Definition repository_link : node :=
  NElem "Link"
    [("href", str "https://github.com/keepdying/itu-web-archive");
     ("target", str "_blank"); ("rel", str "noopener noreferrer");
     ("color", str "inherit")]
    [text "GitHub Repository"].

(** The footer around an attribution: the attribution, the separator
    [" -"] and [" "], the repository link. *)
Definition footer_around (attribution : node) : node :=
  NElem "Box" [("component", str "footer")]
    [NElem "Typography"
       [("variant", str "body2"); ("color", str "text.secondary")]
       [attribution; text " -"; text " "; repository_link]].

(** The last character of a string. *)
Fixpoint last_char (s : string) : option ascii :=
  match s with
  | EmptyString => None
  | String c EmptyString => Some c
  | String _ rest => last_char rest
  end.

(** The attribution of a list of names, as a sentence: one name alone, two
    names joined by the conjunction, more names separated by commas with the
    conjunction before the last. *)
Fixpoint sentence (names : list string) : string :=
  match names with
  | [] => ""
  | a :: rest =>
      match rest with
      | [] => "@" ++ a
      | [_] => "@" ++ a ++ " ve " ++ sentence rest
      | _ => "@" ++ a ++ ", " ++ sentence rest
      end
  end.


(** The value of the prop [key] of an element. *)
Fixpoint prop (key : string) (props : list (string * value)) : value :=
  match props with
  | [] => None
  | (k, v) :: rest => if String.eqb k key then v else prop key rest
  end.

(** Every [Link] of a tree opens in a new browsing context ([target] is
    [_blank]) and keeps the opener from it ([rel] starts with [noopener]). *)
Fixpoint opens_safely (n : node) : bool :=
  match n with
  | NVal _ => true
  | NList items => forallb opens_safely items
  | NElem type props children =>
      andb
        (if String.eqb type "Link"
         then andb (strict_equals_string (prop "target" props) "_blank")
                   (match prop "rel" props with
                    | Some (JStr rel) => String.prefix "noopener" rel
                    | _ => false
                    end)
         else true)
        (forallb opens_safely children)
  end.

End Page.

(** ** The fetcher: filtering, projection and the owner *)

Import FetchContributors Provider.

Lemma strict_equals_string_true (v : value) (s : string) :
  strict_equals_string v s = true <-> v = str s.
Proof.
  unfold strict_equals_string, str.
  destruct v as [[ | b | lit | t | items | props] | ]; split; intro H;
    try discriminate; try (inversion H; fail).
  - apply String.eqb_eq in H. now subst.
  - inversion H. apply String.eqb_refl.
Qed.

Lemma get_readable (record : json) (key : string) :
  readable record -> get (Some record) key = ret (field key record).
Proof.
  unfold readable. destruct record; intro H; try reflexivity.
  now elim H.
Qed.

Lemma get_succeeds_readable (record : json) (key : string) (v : value) :
  get (Some record) key = ret v -> readable record.
Proof.
  unfold readable. destruct record; simpl; intros H E; discriminate.
Qed.

Lemma filter_loop_human_users (records : list json) :
  Forall readable records ->
  filter_loop type_is_User records = ret (human_users records).
Proof.
  induction 1 as [ | r rest Hr _ IH]; [reflexivity | ].
  simpl. unfold type_is_User at 1. rewrite (get_readable r "type" Hr). simpl.
  rewrite IH. simpl. unfold is_user. now destruct (strict_equals_string _ _).
Qed.

Lemma filter_loop_readable (records kept : list json) :
  filter_loop type_is_User records = ret kept -> Forall readable records.
Proof.
  revert kept. induction records as [ | r rest IH]; intros kept H; [constructor | ].
  simpl in H. unfold type_is_User at 1 in H.
  destruct (get (Some r) "type") as [e | t] eqn:Ht; [discriminate | ].
  simpl in H.
  destruct (filter_loop type_is_User rest) as [e | kept'] eqn:Hrest; [discriminate | ].
  constructor; [exact (get_succeeds_readable _ _ _ Ht) | exact (IH _ eq_refl)].
Qed.

Lemma map_loop_project (records : list json) (index : Z) :
  Forall readable records ->
  map_loop to_contributor index records = ret (map project records).
Proof.
  intro H. revert index. induction H as [ | r rest Hr _ IH]; intro index;
    [reflexivity | ].
  simpl. unfold to_contributor at 1.
  rewrite (get_readable r "login" Hr), (get_readable r "html_url" Hr). simpl.
  now rewrite IH.
Qed.

Lemma human_users_readable (records : list json) :
  Forall readable records -> Forall readable (human_users records).
Proof.
  intro H. apply Forall_forall. intros r Hin.
  apply filter_In in Hin. rewrite Forall_forall in H. now apply H.
Qed.

(** On an array of readable records the two loops are the list functions. *)
Lemma filter_and_format_records (records : list json) :
  Forall readable records ->
  filter_and_format (JArr records) = ret (map project (human_users records)).
Proof.
  intro H. unfold filter_and_format. simpl.
  rewrite (filter_loop_human_users records H). simpl.
  apply map_loop_project. now apply human_users_readable.
Qed.

(** The script gets a list exactly from an array of readable records. *)
Lemma formattedContributors_succeeds_iff (contributors : json) :
  (exists formatted, formattedContributors contributors = ret formatted) <->
  (exists records, contributors = JArr records /\ Forall readable records).
Proof.
  split.
  - intros [formatted H]. unfold formattedContributors, filter_and_format in H.
    destruct contributors as [ | b | lit | t | records | props]; try discriminate.
    exists records. split; [reflexivity | ].
    simpl in H.
    destruct (filter_loop type_is_User records) as [e | kept] eqn:Hk;
      [discriminate | ].
    exact (filter_loop_readable _ _ Hk).
  - intros [records [-> H]]. unfold formattedContributors.
    rewrite (filter_and_format_records records H). simpl. eauto.
Qed.

Lemma ownerExists_false_not_in (l : list Contributor) :
  ownerExists l = false -> ~ In (str REPO_OWNER) (map username l).
Proof.
  unfold ownerExists. intros H Hin.
  apply in_map_iff in Hin. destruct Hin as [c [Hc Hin]].
  assert (E : existsb (fun c => strict_equals_string (username c) REPO_OWNER) l = true).
  { apply existsb_exists. exists c. split; [exact Hin | ].
    now apply strict_equals_string_true. }
  congruence.
Qed.

Lemma count_owner_zero (l : list Contributor) :
  ownerExists l = false -> count_owner l = 0.
Proof.
  unfold ownerExists, count_owner.
  induction l as [ | c rest IH]; [reflexivity | ].
  simpl. destruct (strict_equals_string (username c) REPO_OWNER); simpl;
    [discriminate | exact IH].
Qed.

Lemma username_project (records : list json) :
  map username (map project records) = map (field "login") records.
Proof. rewrite map_map. reflexivity. Qed.

Lemma ownerExists_project_false (records : list json) :
  (forall r, In r records -> is_user r = true -> field "login" r <> str REPO_OWNER) ->
  ownerExists (map project (human_users records)) = false.
Proof.
  intro Hno. unfold ownerExists.
  destruct (existsb _ _) eqn:E; [ | reflexivity].
  apply existsb_exists in E. destruct E as [c [Hin Hc]].
  apply in_map_iff in Hin. destruct Hin as [r [<- Hr]].
  apply filter_In in Hr. destruct Hr as [Hr Hu].
  apply strict_equals_string_true in Hc. simpl in Hc.
  now elim (Hno r Hr Hu).
Qed.

(** C1.  When no human-user record of the response has the login
    ['keepdying'], the list the fetcher builds starts with the owner, whose
    [profileUrl] is ['https://github.com/keepdying'], and the owner's name
    occurs in it exactly once. *)
Theorem C1_owner_prepended_exactly_once (records : list json) :
  Forall readable records ->
  (forall r, In r records -> is_user r = true -> field "login" r <> str "keepdying") ->
  exists formatted,
    formattedContributors (JArr records) = ret formatted /\
    hd_error formatted =
      Some {| username := str "keepdying";
              profileUrl := str "https://github.com/keepdying" |} /\
    count_owner formatted = 1.
Proof.
  intros Hread Hno.
  exists (owner :: map project (human_users records)).
  pose proof (ownerExists_project_false records Hno) as Habsent.
  unfold formattedContributors.
  rewrite (filter_and_format_records records Hread). simpl.
  unfold ensure_owner. rewrite Habsent. simpl.
  repeat split.
  change (S (count_owner (map project (human_users records))) = 1).
  now rewrite (count_owner_zero _ Habsent).
Qed.

Lemma C1_witness :
  exists formatted,
    formattedContributors
      (JArr [account "User" "a" "https://github.com/a";
             account "Bot" "keepdying" "https://github.com/apps/keepdying"])
      = ret formatted /\
    hd_error formatted =
      Some {| username := str "keepdying";
              profileUrl := str "https://github.com/keepdying" |} /\
    count_owner formatted = 1.
Proof.
  apply C1_owner_prepended_exactly_once.
  - repeat constructor; discriminate.
  - intros r [<- | [<- | []]]; vm_compute; congruence.
Defined.

(** C8.  When every record of the response has the account type ['Bot'], the
    list the fetcher builds is the synthesized owner record alone. *)
Theorem C8_only_bots_gives_owner_alone (records : list json) :
  Forall (fun record => get (Some record) "type" = ret (str "Bot")) records ->
  formattedContributors (JArr records) =
    ret [{| username := str "keepdying";
            profileUrl := str "https://github.com/keepdying" |}].
Proof.
  intro Hbots.
  assert (Hread : Forall readable records).
  { eapply Forall_impl; [ | exact Hbots]. intros r Hr.
    exact (get_succeeds_readable _ _ _ Hr). }
  assert (Hnone : human_users records = []).
  { clear Hread. induction Hbots as [ | r rest Hr _ IH]; [reflexivity | ].
    unfold human_users in *. simpl. unfold is_user at 1.
    pose proof (get_succeeds_readable _ _ _ Hr) as Hrr.
    rewrite (get_readable r "type" Hrr) in Hr. inversion Hr as [Hf].
    rewrite Hf. simpl. exact IH. }
  unfold formattedContributors.
  rewrite (filter_and_format_records records Hread), Hnone. reflexivity.
Qed.

Lemma C8_witness :
  formattedContributors
    (JArr [account "Bot" "dependabot[bot]" "https://github.com/apps/dependabot";
           account "Bot" "github-actions[bot]" "https://github.com/apps/github-actions"])
  = ret [{| username := str "keepdying";
            profileUrl := str "https://github.com/keepdying" |}].
Proof.
  apply C8_only_bots_gives_owner_alone.
  repeat constructor.
Defined.

(** C10.  The list the fetcher builds is the human-user records of the
    response, in the provider's order, each projected to its [login] and
    [html_url] unchanged; the only other entry it can hold is the owner
    record, at the front, and that one is there exactly when no projected
    entry carries the owner's name. *)
Theorem C10_order_preserved (records : list json) :
  Forall readable records ->
  let users := map project (filter is_user records) in
  exists formatted,
    formattedContributors (JArr records) = ret formatted /\
    ((ownerExists users = true /\ formatted = users) \/
     (ownerExists users = false /\ formatted = owner :: users)).
Proof.
  intros Hread users. subst users.
  unfold formattedContributors.
  rewrite (filter_and_format_records records Hread). simpl.
  unfold ensure_owner, human_users.
  destruct (ownerExists (map project (filter is_user records))) eqn:E; simpl;
    eexists; (split; [reflexivity | ]); [left | right]; now split.
Qed.

Lemma C10_witness :
  exists formatted,
    formattedContributors
      (JArr [account "User" "b" "https://github.com/b";
             account "Bot" "ci[bot]" "https://github.com/apps/ci";
             account "User" "keepdying" "https://github.com/keepdying";
             account "User" "a" "https://github.com/a"])
      = ret formatted /\
    formatted = [ {| username := str "b"; profileUrl := str "https://github.com/b" |};
                  {| username := str "keepdying";
                     profileUrl := str "https://github.com/keepdying" |};
                  {| username := str "a"; profileUrl := str "https://github.com/a" |} ].
Proof.
  destruct (C10_order_preserved
              [account "User" "b" "https://github.com/b";
               account "Bot" "ci[bot]" "https://github.com/apps/ci";
               account "User" "keepdying" "https://github.com/keepdying";
               account "User" "a" "https://github.com/a"])
    as [formatted [Hrun [[_ Hsame] | [Habsurd _]]]].
  - repeat constructor; discriminate.
  - exists formatted. split; [exact Hrun | exact Hsame].
  - vm_compute in Habsurd. discriminate.
Defined.

(** C4, as stated, fails: the fetcher has no step that removes duplicates.
    A response that lists the login ["a"] twice gives a list with two
    entries named ["a"]. *)
Lemma C4_duplicates_are_kept :
  exists formatted,
    formattedContributors twice_the_same_login = ret formatted /\
    ~ NoDup (map username formatted).
Proof.
  eexists. split; [reflexivity | ].
  simpl. intro H.
  inversion H as [ | x l _ H1]; subst.
  inversion H1 as [ | y l' Hnot _]; subst.
  apply Hnot. now left.
Qed.

(** C4, amended.  When the human-user records of the response have pairwise
    distinct logins, every [username] occurs exactly once in the list the
    fetcher builds. *)
Theorem C4_unique_when_logins_unique (records : list json) :
  Forall readable records ->
  NoDup (map (field "login") (human_users records)) ->
  exists formatted,
    formattedContributors (JArr records) = ret formatted /\
    NoDup (map username formatted).
Proof.
  intros Hread Hnodup.
  unfold formattedContributors.
  rewrite (filter_and_format_records records Hread). simpl.
  eexists. split; [reflexivity | ].
  unfold ensure_owner.
  destruct (ownerExists (map project (human_users records))) eqn:E; simpl.
  - now rewrite username_project.
  - constructor.
    + exact (ownerExists_false_not_in _ E).
    + now rewrite username_project.
Qed.

Lemma C4_witness :
  exists formatted,
    formattedContributors
      (JArr [account "User" "a" "https://github.com/a";
             account "User" "b" "https://github.com/b"]) = ret formatted /\
    NoDup (map username formatted).
Proof.
  apply C4_unique_when_logins_unique.
  - repeat constructor; discriminate.
  - simpl. repeat constructor; simpl; intuition discriminate.
Defined.

(** ** The fetcher: failures and the artifact file *)

Lemma fails_before_write_iff (env : Env) (e : exn) :
  fails_before_write env e <-> fetch_and_format env = throw e.
Proof.
  unfold fetch_and_format. split.
  - intros [e' H | response H Hok | response e' H Hok Hb
            | response contributors e' H Hok Hb Hf];
      rewrite H; simpl; try reflexivity; rewrite Hok; simpl; try reflexivity;
      now rewrite Hb.
  - intro H.
    destruct (request env) as [e' | response] eqn:Hfetch; simpl in H.
    + inversion H; subst. now apply network_error.
    + destruct (ok response) eqn:Hok; simpl in H.
      * destruct (json_body response) as [e' | contributors] eqn:Hb; simpl in H.
        -- inversion H; subst. now apply (body_not_json env response).
        -- now apply (body_malformed env response contributors).
      * inversion H; subst. now apply (status_not_success env response).
Qed.

(** A run that fails before the write logs the error and leaves the file. *)
Lemma run_failing_before_write (env : Env) (w : World) (e : exn) :
  fetch_and_format env = throw e ->
  run env w =
    ({| artifact := artifact w;
        console := console w ++
          [console_log_entry ["Fetching contributors from GitHub API..."];
           console_error_entry ["Error fetching contributors:"; message_of e];
           console_log_entry ["Keeping existing contributors.json file"]] |},
     0%Z).
Proof.
  intro H. unfold run, fetchContributors, try_catch, mbind, lift, console_log.
  rewrite H. simpl. unfold console_error. simpl.
  now rewrite <- !app_assoc.
Qed.

(** C5.  When a run fails in steps 1 to 6 (the request rejects, the status
    is not 2xx, or the body is not the JSON array the script expects), it
    ends, with the artifact file exactly as it was before the run. *)
Theorem C5_failure_leaves_artifact_untouched (env : Env) (w : World) (e : exn) :
  fails_before_write env e ->
  exists w' exit, run env w = (w', exit) /\ artifact w' = artifact w.
Proof.
  intro H. apply fails_before_write_iff in H.
  rewrite (run_failing_before_write env w e H).
  eexists. eexists. split; reflexivity.
Qed.

Lemma C5_witness :
  exists w' exit,
    run {| fetch := fun _ _ =>
             ret {| status := 403; statusText := "rate limit exceeded";
                    json_body := ret (JObj [("message", JStr "API rate limit exceeded")]) |};
           outputPath := "/repo/public/contributors.json";
           write := Written |}
        previous_world = (w', exit) /\
    artifact w' = artifact previous_world.
Proof.
  eapply C5_failure_leaves_artifact_untouched.
  eapply status_not_success; reflexivity.
Defined.

(** C3, as stated, fails: the write is inside the [try], so its failure is
    caught like any other.  With the disk full the promise of the script is
    fulfilled and the process ends with status 0. *)
Lemma C3_write_failure_is_caught :
  (exists formatted, fetch_and_format disk_full = ret formatted) /\
  (exists e left_behind, write disk_full = WriteFails e left_behind) /\
  snd (fetchContributors disk_full previous_world) = ret tt /\
  snd (run disk_full previous_world) = 0%Z.
Proof.
  repeat split; try reflexivity.
  - eexists. reflexivity.
  - eexists. eexists. reflexivity.
Qed.

(** C3, amended.  When the list was built and writing the artifact file
    fails, the failure is caught inside the fetcher: the error is logged, the
    file is as the failed write left it and the run ends normally, with
    status 0. *)
Theorem C3_write_failure_ends_normally
  (env : Env) (w : World) (formatted : list Contributor)
  (e : exn) (left_behind : option string) :
  fetch_and_format env = ret formatted ->
  write env = WriteFails e left_behind ->
  run env w =
    ({| artifact := left_behind;
        console := console w ++
          [console_log_entry ["Fetching contributors from GitHub API..."];
           console_error_entry ["Error fetching contributors:"; message_of e];
           console_log_entry ["Keeping existing contributors.json file"]] |},
     0%Z).
Proof.
  intros Hlist Hwrite.
  unfold run, fetchContributors, try_catch, mbind, lift, console_log, writeFileSync.
  rewrite Hlist. simpl. rewrite Hwrite. simpl. unfold console_error. simpl.
  now rewrite <- !app_assoc.
Qed.

Lemma C3_witness :
  run disk_full previous_world =
    ({| artifact := Some "";
        console :=
          [console_log_entry ["Fetching contributors from GitHub API..."];
           console_error_entry ["Error fetching contributors:";
                                "ENOSPC: no space left on device, write"];
           console_log_entry ["Keeping existing contributors.json file"]] |},
     0%Z).
Proof.
  exact (C3_write_failure_ends_normally disk_full previous_world _ _ _
           eq_refl eq_refl).
Defined.


(** ** The footer *)

Import Footer Page.

Lemma last_char_app (a b : string) :
  b <> "" -> last_char (a ++ b) = last_char b.
Proof.
  intro Hb. induction a as [ | c a IH]; [reflexivity | ].
  simpl. rewrite IH.
  destruct (a ++ b) eqn:E; [ | reflexivity].
  destruct a; simpl in E; [now elim Hb | discriminate].
Qed.

Lemma ensure_owner_not_empty (l : list Contributor) : ensure_owner l <> [].
Proof.
  unfold ensure_owner.
  destruct (ownerExists l) eqn:E; simpl; [ | discriminate].
  destruct l; [discriminate | discriminate].
Qed.

Lemma map_loop_entries (length : Z) (items : list json) (index : Z) :
  Forall (fun item => exists props, item = JObj props) items ->
  exists links, map_loop (entry length) index items = ret links.
Proof.
  intro H. revert index.
  induction H as [ | item rest [props ->] _ IH]; intro index.
  - exists []. reflexivity.
  - destruct (IH (index + 1)%Z) as [links Hlinks].
    eexists. simpl. rewrite Hlinks. reflexivity.
Qed.

Lemma artifact_entries_are_objects (formatted : list Contributor) :
  Forall (fun item => exists props, item = JObj props)
         (map contributor_json formatted).
Proof.
  apply Forall_forall. intros item Hin.
  apply in_map_iff in Hin. destruct Hin as [c [<- _]].
  unfold contributor_json. eauto.
Qed.

(** A list that is not empty is rendered as links and the suffix. *)
Lemma formatContributors_objects (items : list json) :
  items <> [] ->
  Forall (fun item => exists props, item = JObj props) items ->
  exists links,
    formatContributors (JArr items) =
      ret (NElem "React.Fragment" [] [NList links; text " hayratıdır."]).
Proof.
  intros Hne Hobj.
  destruct (map_loop_entries (Z.of_nat (List.length items)) items 0%Z Hobj)
    as [links Hlinks].
  exists links. unfold formatContributors. simpl.
  destruct items as [ | x rest]; [now elim Hne | ].
  change (Z.of_nat (List.length (x :: rest)) =? 0)%Z with
    (Z.of_nat (S (List.length rest)) =? 0)%Z.
  destruct (Z.eqb_spec (Z.of_nat (S (List.length rest))) 0) as [E | _]; [lia | ].
  simpl. simpl in Hlinks. rewrite Hlinks. reflexivity.
Qed.

Lemma text_content_with_suffix (links : list node) (t : string) :
  text_content (NElem "React.Fragment" [] [NList links; text " hayratıdır."]) = Some t ->
  exists names, t = names ++ " hayratıdır.".
Proof.
  simpl.
  match goal with
  | |- match ?x with _ => _ end = _ -> _ => destruct x as [names | ]
  end; [ | discriminate].
  intro H. inversion H. now exists names.
Qed.

(** C7.  For the empty list the attribution is the fixed string
    ["@keepdying hayratıdır"], a plain text with no link, and the footer is
    that phrase, the separator [" - "] and the link to the repository. *)
Theorem C7_empty_list_renders_fallback :
  formatContributors (JArr []) = ret (NVal (Some (JStr "@keepdying hayratıdır"))) /\
  render (JArr []) =
    ret (NElem "Box" [("component", str "footer")]
           [NElem "Typography"
              [("variant", str "body2"); ("color", str "text.secondary")]
              [NVal (Some (JStr "@keepdying hayratıdır"));
               NVal (Some (JStr " -"));
               NVal (Some (JStr " "));
               NElem "Link"
                 [("href", str "https://github.com/keepdying/itu-web-archive");
                  ("target", str "_blank"); ("rel", str "noopener noreferrer");
                  ("color", str "inherit")]
                 [NVal (Some (JStr "GitHub Repository"))]]]) /\
  bind (render (JArr [])) (fun page => ret (text_content page)) =
    ret (Some "@keepdying hayratıdır - GitHub Repository").
Proof. repeat split. Qed.

(** C6.  For the three contributors [a], [b], [c] the footer reads
    ["@a, @b ve @c hayratıdır. - GitHub Repository"]: each name is a link
    labelled [@name], the first two are joined by [", "], the last two by the
    conjunction [" ve "], then come the suffix, the separator and the link to
    the repository. *)
Theorem C6_three_contributors :
  render a_b_c =
    ret (footer_around
           (NElem "React.Fragment" []
              [NList
                 [NElem "React.Fragment" [("key", str "a")]
                    [profile_link undefined (str "a"); text ", "];
                  NElem "React.Fragment" [("key", str "b")]
                    [profile_link undefined (str "b"); text " ve "];
                  NElem "React.Fragment" [("key", str "c")]
                    [profile_link undefined (str "c"); NVal (Some (JBool false))]];
               text " hayratıdır."])) /\
  bind (render a_b_c) (fun page => ret (text_content page)) =
    ret (Some "@a, @b ve @c hayratıdır. - GitHub Repository").
Proof. split; reflexivity. Qed.

(** C9.  Every list the fetcher builds has at least one entry, and the
    footer that loads its artifact does not take the fallback branch: the
    attribution is a fragment of links, not the fallback string, and whatever
    text it shows differs from the fallback phrase. *)
Theorem C9_fetched_artifact_never_renders_fallback
  (contributors : json) (formatted : list Contributor) :
  formattedContributors contributors = ret formatted ->
  1 <= List.length formatted /\
  exists attribution,
    formatContributors (contributors_after (serves (artifact_document formatted)))
      = ret attribution /\
    render_after (serves (artifact_document formatted))
      = ret (footer_around attribution) /\
    attribution <> text fallback_phrase /\
    forall shown, text_content attribution = Some shown -> shown <> fallback_phrase.
Proof.
  intro Hrun.
  assert (Hne : formatted <> []).
  { unfold formattedContributors in Hrun.
    destruct (filter_and_format contributors) as [e | l]; [discriminate | ].
    inversion Hrun. apply ensure_owner_not_empty. }
  split.
  { destruct formatted; [now elim Hne | simpl; lia]. }
  destruct (formatContributors_objects (map contributor_json formatted))
    as [links Hlinks].
  { destruct formatted; [now elim Hne | discriminate]. }
  { apply artifact_entries_are_objects. }
  exists (NElem "React.Fragment" [] [NList links; text " hayratıdır."]).
  change (contributors_after (serves (artifact_document formatted)))
    with (JArr (map contributor_json formatted)).
  repeat split.
  - exact Hlinks.
  - unfold render_after.
    change (contributors_after (serves (artifact_document formatted)))
      with (JArr (map contributor_json formatted)).
    unfold render. rewrite Hlinks. reflexivity.
  - discriminate.
  - intros shown Hshown Heq.
    destruct (text_content_with_suffix links shown Hshown) as [names ->].
    assert (Hlast : last_char (names ++ " hayratıdır.") = last_char fallback_phrase)
      by now rewrite Heq.
    rewrite last_char_app in Hlast by discriminate.
    vm_compute in Hlast. discriminate.
Qed.

Lemma C9_witness :
  1 <= List.length [owner] /\
  exists attribution,
    formatContributors (contributors_after (serves (artifact_document [owner])))
      = ret attribution /\
    render_after (serves (artifact_document [owner]))
      = ret (footer_around attribution) /\
    attribution <> text fallback_phrase /\
    forall shown, text_content attribution = Some shown -> shown <> fallback_phrase.
Proof.
  apply (C9_fetched_artifact_never_renders_fallback (JArr [])).
  reflexivity.
Defined.

(** C2, as stated, fails: the component never looks at the status, so a 404
    whose body is JSON is loaded like any other body.  With an error object
    as the body the next render throws. *)
Lemma C2_not_found_with_json_body_throws :
  fails_as_specified (host_without_artifact not_found_with_json_body artifact_url) /\
  render_after (host_without_artifact not_found_with_json_body)
    = throw (TypeError "contributors.map is not a function") /\
  render_after (host_without_artifact not_found_with_json_body) <> render (JArr []).
Proof.
  repeat split.
  - right. eexists. split; reflexivity.
  - discriminate.
Qed.

(** C2, amended.  When the request for the artifact rejects, or the body of
    the response is not JSON (as for the HTML page of a 404), the state is
    not set and stays the empty list, the render does not throw and gives
    the footer of the empty list; the rejection itself is left unhandled. *)
Theorem C2_rejected_request_renders_fallback (fetch : fetcher) (e : exn) :
  rejects (fetch "/itu-web-archive/contributors.json") e ->
  effect fetch initial_contributors = (JArr [], throw e) /\
  render_after fetch = render (JArr []) /\
  render_after fetch = ret (footer_around (text "@keepdying hayratıdır")).
Proof.
  unfold render_after, contributors_after, effect.
  change artifact_url with "/itu-web-archive/contributors.json".
  intro H. inversion H as [e' Hfetch | response e' Hbody Hfetch]; subst.
  - repeat split.
  - simpl. rewrite Hbody. repeat split.
Qed.

Lemma C2_witness :
  effect (host_without_artifact not_found_with_html_body) initial_contributors
    = (JArr [], throw (SyntaxError "Unexpected token '<'")) /\
  render_after (host_without_artifact not_found_with_html_body) = render (JArr []) /\
  render_after (host_without_artifact not_found_with_html_body)
    = ret (footer_around (text "@keepdying hayratıdır")).
Proof.
  apply C2_rejected_request_renders_fallback.
  apply json_rejects. reflexivity.
Defined.

(** ** The footer: the formatting rule for every list *)

Lemma text_content_list_cons (x : node) (xs : list node) :
  text_content (NList (x :: xs)) =
    match text_content x, text_content (NList xs) with
    | Some a, Some b => Some (a ++ b)
    | _, _ => None
    end.
Proof. reflexivity. Qed.

Lemma append_assoc (a b c : string) : (a ++ b) ++ c = a ++ (b ++ c).
Proof. induction a as [ | x a IH]; simpl; [reflexivity | now rewrite IH]. Qed.

Lemma append_empty (a : string) : a ++ "" = a.
Proof. induction a as [ | x a IH]; simpl; [reflexivity | now rewrite IH]. Qed.

Lemma map_loop_cons {A B} (callback : A -> Z -> result B) (index : Z)
  (x : A) (rest : list A) :
  map_loop callback index (x :: rest) =
    bind (callback x index)
         (fun y => bind (map_loop callback (index + 1) rest)
                        (fun ys => ret (y :: ys))).
Proof. reflexivity. Qed.

(** The entries from [index] on, [length] being the length of the whole
    array: their text is the sentence of their names. *)
Lemma map_loop_entries_sentence
  (length : Z) (items : list json) (names : list string) (index : Z) :
  Forall2 (fun item name => get (Some item) "username" = ret (str name)) items names ->
  length = (index + Z.of_nat (List.length items))%Z ->
  exists links,
    map_loop (entry length) index items = ret links /\
    text_content (NList links) = Some (sentence names).
Proof.
  intro H. revert index.
  induction H as [ | item name items names Hname Hrest IH]; intros index Hlen.
  - exists []. split; reflexivity.
  - destruct (IH (index + 1)%Z) as [links [Hlinks Htext]].
    { rewrite Hlen. simpl List.length. lia. }
    assert (Hobj : exists props, item = JObj props).
    { destruct item; simpl in Hname; try discriminate. eauto. }
    destruct Hobj as [props ->].
    simpl in Hname. inversion Hname as [Hlookup].
    eexists. split.
    + rewrite map_loop_cons, Hlinks. unfold entry. simpl. rewrite Hlookup.
      reflexivity.
    + rewrite text_content_list_cons, Htext.
      unfold separator.
      destruct Hrest as [ | item2 name2 items2 names2 _ Hrest2].
      * simpl in Hlen.
        destruct (Z.ltb_spec index (length - 1)) as [Hlt | _]; [lia | ].
        simpl. now rewrite !append_empty.
      * destruct (Z.ltb_spec index (length - 1)) as [_ | Hge];
          [ | simpl in Hlen; lia].
        destruct Hrest2 as [ | item3 name3 items3 names3 _ _].
        -- simpl in Hlen.
           destruct (Z.eqb_spec index (length - 2)) as [_ | Hne]; [ | lia].
           simpl. now rewrite !append_empty, !append_assoc.
        -- destruct (Z.eqb_spec index (length - 2)) as [Heq | _];
             [simpl in Hlen; lia | ].
           change (sentence (name :: name2 :: name3 :: names3))
             with ("@" ++ name ++ ", " ++ sentence (name2 :: name3 :: names3)).
           generalize (sentence (name2 :: name3 :: names3)). intro tail.
           simpl. now rewrite !append_empty, !append_assoc.
Qed.

(** X1.  For contributors whose names are the strings [names], at least one
    of them, the attribution reads: the names, each after an [@], separated
    by [", "] except the last two, which are joined by [" ve "], and then the
    suffix [" hayratıdır."]. *)
Theorem X1_attribution_reads_as_sentence (items : list json) (names : list string) :
  Forall2 (fun item name => get (Some item) "username" = ret (str name)) items names ->
  names <> [] ->
  exists attribution,
    formatContributors (JArr items) = ret attribution /\
    text_content attribution = Some (sentence names ++ " hayratıdır.").
Proof.
  intros Hnames Hne.
  destruct (map_loop_entries_sentence (Z.of_nat (List.length items)) items names 0%Z
              Hnames eq_refl) as [links [Hlinks Htext]].
  exists (NElem "React.Fragment" [] [NList links; text " hayratıdır."]).
  split.
  - unfold formatContributors.
    destruct Hnames as [ | item name items names _ _]; [now elim Hne | ].
    simpl length_is_zero.
    destruct (Z.eqb_spec (Z.of_nat (List.length (item :: items))) 0) as [E | _];
      [simpl in E; lia | ].
    simpl. simpl in Hlinks. rewrite Hlinks. reflexivity.
  - change (text_content (NElem "React.Fragment" [] [NList links; text " hayratıdır."]))
      with (match text_content (NList links) with
            | Some a => Some (a ++ " hayratıdır." ++ "")
            | None => None
            end).
    rewrite Htext. reflexivity.
Qed.

Lemma X1_witness :
  exists attribution,
    formatContributors
      (JArr [JObj [("username", JStr "keepdying");
                   ("profileUrl", JStr "https://github.com/keepdying")];
             JObj [("username", JStr "a"); ("profileUrl", JStr "https://github.com/a")]])
      = ret attribution /\
    text_content attribution = Some "@keepdying ve @a hayratıdır.".
Proof.
  apply (X1_attribution_reads_as_sentence _ ["keepdying"; "a"]).
  - repeat constructor.
  - discriminate.
Defined.

(** ** The footer: which states it can render *)

Lemma entry_readable (length : Z) (item : json) (index : Z) :
  readable item ->
  entry length item index =
    ret (NElem "React.Fragment" [("key", field "username" item)]
           [profile_link (field "profileUrl" item) (field "username" item);
            separator length index]).
Proof.
  intro H. unfold entry.
  rewrite (get_readable item "username" H), (get_readable item "profileUrl" H).
  reflexivity.
Qed.


Lemma formatContributors_cons (item : json) (rest : list json) :
  formatContributors (JArr (item :: rest)) =
    bind (map_loop (entry (Z.of_nat (List.length (item :: rest)))) 0%Z (item :: rest))
         (fun links =>
            ret (NElem "React.Fragment" [] [NList links; text " hayratıdır."])).
Proof.
  unfold formatContributors, length_is_zero.
  destruct (Z.eqb_spec (Z.of_nat (List.length (item :: rest))) 0) as [E | _];
    [simpl in E; lia | reflexivity].
Qed.


(** ** The footer: its links *)

Lemma separator_opens_safely (length index : Z) :
  opens_safely (separator length index) = true.
Proof.
  unfold separator.
  destruct (index <? length - 1)%Z; [ | reflexivity].
  destruct (index =? length - 2)%Z; reflexivity.
Qed.

Lemma entries_open_safely (length : Z) (items : list json) (index : Z)
  (links : list node) :
  map_loop (entry length) index items = ret links ->
  forallb opens_safely links = true.
Proof.
  revert index links. induction items as [ | item rest IH]; intros index links H.
  - inversion H. reflexivity.
  - rewrite map_loop_cons in H.
    assert (Hread : readable item).
    { intros ->. discriminate. }
    rewrite (entry_readable length item index Hread) in H. simpl in H.
    destruct (map_loop (entry length) (index + 1) rest) as [e | links'] eqn:Hrest;
      [discriminate | ].
    inversion H. subst links. clear H.
    change (andb (andb true (andb true (andb (opens_safely (separator length index)) true)))
                 (forallb opens_safely links') = true).
    rewrite separator_opens_safely, (IH _ _ Hrest). reflexivity.
Qed.

Lemma attribution_opens_safely (contributors : json) (attribution : node) :
  formatContributors contributors = ret attribution ->
  opens_safely attribution = true.
Proof.
  destruct contributors as [ | b | lit | s | items | props].
  - discriminate.
  - discriminate.
  - discriminate.
  - unfold formatContributors. simpl.
    destruct (String.eqb s ""); simpl; intro H; [ | discriminate].
    inversion H. reflexivity.
  - destruct items as [ | item rest].
    + intro H. inversion H. reflexivity.
    + rewrite formatContributors_cons.
      destruct (map_loop (entry (Z.of_nat (List.length (item :: rest)))) 0
                  (item :: rest)) as [e | links] eqn:Hlinks; [discriminate | ].
      intro H. inversion H.
      change (andb true (andb (forallb opens_safely links) true) = true).
      now rewrite (entries_open_safely _ _ _ _ Hlinks).
  - unfold formatContributors. simpl.
    destruct (match lookup "length" props with
              | Some (JNum lit) => String.eqb lit "0"
              | _ => false
              end); simpl; intro H; [ | discriminate].
    inversion H. reflexivity.
Qed.

(** X3.  Whatever was loaded, every link of a rendered footer, the
    contributors' and the repository's, has [target="_blank"] and a [rel]
    that starts with [noopener]. *)
Theorem X3_links_open_in_new_context_without_opener
  (contributors : json) (page : node) :
  render contributors = ret page ->
  opens_safely page = true.
Proof.
  unfold render.
  destruct (formatContributors contributors) as [e | attribution] eqn:Hformat;
    [discriminate | ].
  intro H. inversion H.
  pose proof (attribution_opens_safely contributors attribution Hformat) as Hsafe.
  simpl. simpl in Hsafe. now rewrite Hsafe.
Qed.

Lemma X3_witness :
  opens_safely
    (footer_around
       (NElem "React.Fragment" []
          [NList [NElem "React.Fragment" [("key", str "a")]
                    [profile_link (str "https://github.com/a") (str "a");
                     NVal (Some (JBool false))]];
           text " hayratıdır."])) = true.
Proof.
  apply (X3_links_open_in_new_context_without_opener
           (JArr [JObj [("username", JStr "a");
                        ("profileUrl", JStr "https://github.com/a")]])).
  reflexivity.
Defined.

(** ** From the provider's response to the text of the footer *)

Lemma contributor_json_username (c : Contributor) :
  get (Some (contributor_json c)) "username" = ret (username c).
Proof. destruct c as [[u | ] [p | ]]; reflexivity. Qed.



Lemma text_content_attribution (links : list node) :
  text_content (NElem "React.Fragment" [] [NList links; text " hayratıdır."]) =
    match text_content (NList links) with
    | Some names => Some (names ++ " hayratıdır.")
    | None => None
    end.
Proof.
  change (text_content (NElem "React.Fragment" [] [NList links; text " hayratıdır."]))
    with (match text_content (NList links) with
          | Some a => Some (a ++ " hayratıdır." ++ "")
          | None => None
          end).
  reflexivity.
Qed.

Lemma text_content_footer_around (attribution : node) :
  text_content (footer_around attribution) =
    match text_content attribution with
    | Some shown => Some (shown ++ " - GitHub Repository")
    | None => None
    end.
Proof.
  unfold footer_around, repository_link.
  cbn [text_content fold_right].
  destruct (text_content attribution); simpl; rewrite ?append_empty; reflexivity.
Qed.

Lemma ownerExists_names (users : list json) (names : list string) :
  Forall2 (fun r name => field "login" r = str name) users names ->
  ownerExists (map project users) =
    existsb (fun name => String.eqb name "keepdying") names.
Proof.
  unfold ownerExists.
  induction 1 as [ | r name users names Hr _ IH]; [reflexivity | ].
  simpl. rewrite Hr, IH. reflexivity.
Qed.

Lemma artifact_usernames (users : list json) (names : list string) :
  Forall2 (fun r name => field "login" r = str name) users names ->
  Forall2 (fun item name => get (Some item) "username" = ret (str name))
          (map contributor_json (map project users)) names.
Proof.
  induction 1 as [ | r name users names Hr _ IH]; [constructor | ].
  rewrite !map_cons. constructor; [ | exact IH].
  rewrite contributor_json_username. simpl. now rewrite Hr.
Qed.

(** X5.  When the logins of the human-user records are the strings [names],
    the footer that loads the artifact of that response reads: the owner
    first unless the provider listed the name, then the names in the
    provider's order, formatted as a sentence, then the suffix, [" - "] and
    ["GitHub Repository"]. *)
Theorem X5_response_to_footer_text (records : list json) (names : list string) :
  Forall readable records ->
  Forall2 (fun r name => field "login" r = str name) (human_users records) names ->
  exists formatted page,
    formattedContributors (JArr records) = ret formatted /\
    render_after (serves (artifact_document formatted)) = ret page /\
    text_content page =
      Some (sentence (if existsb (fun name => String.eqb name "keepdying") names
                      then names else "keepdying" :: names)
              ++ " hayratıdır. - GitHub Repository").
Proof.
  intros Hread Hnames.
  set (shown := if existsb (fun name => String.eqb name "keepdying") names
                then names else "keepdying" :: names).
  set (formatted := ensure_owner (map project (human_users records))).
  assert (Hitems :
    Forall2 (fun item name => get (Some item) "username" = ret (str name))
            (map contributor_json formatted) shown).
  { subst formatted shown. unfold ensure_owner.
    rewrite (ownerExists_names _ _ Hnames).
    destruct (existsb _ names); simpl.
    - now apply artifact_usernames.
    - constructor; [reflexivity | now apply artifact_usernames]. }
  destruct (map_loop_entries_sentence
              (Z.of_nat (List.length (map contributor_json formatted)))
              (map contributor_json formatted) shown 0%Z Hitems eq_refl)
    as [links [Hlinks Htext]].
  exists formatted.
  exists (footer_around (NElem "React.Fragment" [] [NList links; text " hayratıdır."])).
  split; [ | split].
  - unfold formattedContributors.
    now rewrite (filter_and_format_records records Hread).
  - change (render_after (serves (artifact_document formatted)))
      with (render (JArr (map contributor_json formatted))).
    unfold render.
    destruct (map contributor_json formatted) as [ | item rest] eqn:E.
    + exfalso. apply (ensure_owner_not_empty (map project (human_users records))).
      fold formatted. destruct formatted; [reflexivity | discriminate].
    + rewrite formatContributors_cons, Hlinks. reflexivity.
  - rewrite text_content_footer_around, text_content_attribution, Htext.
    now rewrite append_assoc.
Qed.

Lemma X5_witness :
  exists formatted page,
    formattedContributors
      (JArr [account "User" "b" "https://github.com/b";
             account "Bot" "ci[bot]" "https://github.com/apps/ci";
             account "User" "a" "https://github.com/a"]) = ret formatted /\
    render_after (serves (artifact_document formatted)) = ret page /\
    text_content page = Some "@keepdying, @b ve @a hayratıdır. - GitHub Repository".
Proof.
  apply (X5_response_to_footer_text _ ["b"; "a"]).
  - repeat constructor; discriminate.
  - repeat constructor.
Defined.

(** ** The script: every run, the successful run, the refused request *)

(** X6.  Whatever the network and the file system do, the promise of
    [fetchContributors] is fulfilled and the process ends with status 0: the
    script never reports a failure to the process that started it.  The
    console keeps its earlier lines and gets three more, the first of them
    the announcement of the request. *)
Theorem X6_every_run_ends_with_status_0 (env : Env) (w : World) :
  snd (fetchContributors env w) = ret tt /\
  snd (run env w) = 0%Z /\
  exists second third,
    console (fst (run env w)) =
      (console w ++ [console_log_entry ["Fetching contributors from GitHub API..."];
                     second; third])%list.
Proof.
  unfold run, fetchContributors, try_catch, mbind, lift, console_log,
    console_error, writeFileSync.
  destruct (fetch_and_format env) as [e | formatted]; simpl.
  - repeat split. eexists. eexists. now rewrite <- !app_assoc.
  - destruct (write env) as [ | e left_behind]; simpl;
      repeat split; eexists; eexists; now rewrite <- !app_assoc.
Qed.

Lemma ok_iff (response : FetchContributors.Response) :
  ok response = true <->
  (200 <= FetchContributors.status response <= 299)%Z.
Proof.
  unfold ok. rewrite Bool.andb_true_iff, !Z.leb_le. tauto.
Qed.



(** X8.  A response whose status is below 200 or above 299 is refused
    without reading its body: the run logs ["GitHub API error: "], the status
    and the status text, leaves the file as it was and ends with status 0. *)
Theorem X8_status_outside_2xx_is_refused
  (env : Env) (w : World) (response : FetchContributors.Response) :
  request env = ret response ->
  (FetchContributors.status response < 200 \/
   299 < FetchContributors.status response)%Z ->
  run env w =
    ({| artifact := artifact w;
        console := console w ++
          [console_log_entry ["Fetching contributors from GitHub API..."];
           console_error_entry
             ["Error fetching contributors:";
              "GitHub API error: " ++ Z_to_string (FetchContributors.status response)
                ++ " " ++ statusText response];
           console_log_entry ["Keeping existing contributors.json file"]] |},
     0%Z).
Proof.
  intros Hrequest Hstatus.
  assert (Hok : ok response = false).
  { destruct (ok response) eqn:E; [ | reflexivity].
    apply ok_iff in E. lia. }
  apply (run_failing_before_write env w
           (Error ("GitHub API error: "
                     ++ Z_to_string (FetchContributors.status response)
                     ++ " " ++ statusText response))).
  unfold fetch_and_format. rewrite Hrequest. simpl. now rewrite Hok.
Qed.

Lemma X8_witness :
  run (answering
         {| FetchContributors.status := 304; statusText := "Not Modified";
            FetchContributors.json_body :=
              ret (JArr [account "User" "a" "https://github.com/a"]) |}
         "/repo/public/contributors.json")
      previous_world =
    ({| artifact := Some "[]";
        console :=
          [console_log_entry ["Fetching contributors from GitHub API..."];
           console_error_entry ["Error fetching contributors:";
                                "GitHub API error: 304 Not Modified"];
           console_log_entry ["Keeping existing contributors.json file"]] |},
     0%Z).
Proof.
  apply (X8_status_outside_2xx_is_refused
           (answering _ "/repo/public/contributors.json") previous_world
           {| FetchContributors.status := 304; statusText := "Not Modified";
              FetchContributors.json_body :=
                ret (JArr [account "User" "a" "https://github.com/a"]) |}).
  - reflexivity.
  - right. simpl. lia.
Defined.

(** ** The script: the owner, and bodies of the wrong shape *)

Lemma count_owner_project (records : list json) :
  count_owner (map project (human_users records)) = owner_records records.
Proof.
  unfold count_owner, owner_records, human_users.
  induction records as [ | r rest IH]; [reflexivity | ].
  simpl. destruct (is_user r); simpl.
  - destruct (strict_equals_string (field "login" r) REPO_OWNER); simpl;
      now rewrite IH.
  - exact IH.
Qed.

Lemma ownerExists_count (l : list Contributor) :
  ownerExists l = negb (count_owner l =? 0)%nat.
Proof.
  unfold ownerExists, count_owner.
  induction l as [ | c rest IH]; [reflexivity | ].
  simpl. destruct (strict_equals_string (username c) REPO_OWNER); simpl;
    [reflexivity | exact IH].
Qed.

(** X9.  The owner is never missing from the list the script builds and is
    never added to a list that has the name: the number of entries named
    ['keepdying'] is the number of human-user records with that login, or 1
    when there is none, and the list is longer than the human-user records by
    one entry exactly in that case. *)
Theorem X9_owner_is_added_only_when_missing (records : list json) :
  Forall readable records ->
  exists formatted,
    formattedContributors (JArr records) = ret formatted /\
    count_owner formatted = Nat.max 1 (owner_records records) /\
    List.length formatted =
      (List.length (human_users records)
       + (if (owner_records records =? 0)%nat then 1 else 0))%nat.
Proof.
  intro Hread.
  exists (ensure_owner (map project (human_users records))).
  split.
  - unfold formattedContributors.
    now rewrite (filter_and_format_records records Hread).
  - unfold ensure_owner.
    rewrite ownerExists_count, count_owner_project, Bool.negb_involutive.
    destruct (Nat.eqb_spec (owner_records records) 0) as [E | E].
    + split.
      * change (S (count_owner (map project (human_users records)))
                = Nat.max 1 (owner_records records)).
        rewrite count_owner_project, E. reflexivity.
      * simpl. rewrite length_map. lia.
    + split.
      * rewrite count_owner_project. lia.
      * rewrite length_map. lia.
Qed.

Lemma X9_witness :
  exists formatted,
    formattedContributors
      (JArr [account "User" "a" "https://github.com/a";
             account "User" "keepdying" "https://github.com/keepdying"])
      = ret formatted /\
    count_owner formatted = 1 /\
    List.length formatted = 2.
Proof.
  apply (X9_owner_is_added_only_when_missing
           [account "User" "a" "https://github.com/a";
            account "User" "keepdying" "https://github.com/keepdying"]).
  repeat constructor; discriminate.
Defined.

Lemma filter_loop_cases (records : list json) :
  Forall readable records \/
  filter_loop type_is_User records =
    throw (TypeError "Cannot read properties of null (reading 'type')").
Proof.
  induction records as [ | r rest IH]; [left; constructor | ].
  destruct r as [ | b | lit | s | xs | props];
    try (destruct IH as [Hall | Hthrow];
         [ left; constructor; [discriminate | exact Hall]
         | right; simpl; rewrite Hthrow; reflexivity ]).
  right. reflexivity.
Qed.

(** X10.  A body that is not an array of readable records makes the script
    throw a [TypeError] before any entry is built; for an array that holds
    [null] it is the one of reading [type], because the filter runs over the
    whole array before the first record is projected. *)
Theorem X10_body_of_wrong_shape_throws (contributors : json) :
  ~ (exists records, contributors = JArr records /\ Forall readable records) ->
  exists message,
    formattedContributors contributors = throw (TypeError message) /\
    forall records,
      contributors = JArr records ->
      message = "Cannot read properties of null (reading 'type')".
Proof.
  intro Hshape.
  destruct contributors as [ | b | lit | s | records | props];
    try (eexists; split; [reflexivity | intros records H; discriminate]).
  destruct (filter_loop_cases records) as [Hall | Hthrow].
  - elim Hshape. eauto.
  - eexists. split.
    + unfold formattedContributors, filter_and_format. simpl.
      rewrite Hthrow. reflexivity.
    + reflexivity.
Qed.

Lemma X10_witness :
  exists message,
    formattedContributors
      (JArr [account "User" "a" "https://github.com/a"; JNull])
      = throw (TypeError message) /\
    forall records,
      JArr [account "User" "a" "https://github.com/a"; JNull] = JArr records ->
      message = "Cannot read properties of null (reading 'type')".
Proof.
  apply X10_body_of_wrong_shape_throws.
  intros [records [H Hall]]. inversion H. subst records.
  inversion Hall as [ | x l _ Hrest]. inversion Hrest as [ | y l' Hnull _].
  now apply Hnull.
Defined.
